(** * Linux Command Explorer: the command discoverer and the safe executor

    A shallow embedding of the three functions of [linux.py] that do not
    belong to the page layout:

    - [get_bin_commands]  (the spec's [discover]),
    - [get_command_help]  (the spec's [getHelp]),
    - [run_command_safe]  (the spec's [execute]),

    and of the page code that calls them (the search filter, the command
    line built from the selection and the arguments box, the body of the
    Execute button), followed by the properties the specification states
    about the three functions and by further properties of the code.

    Python strings are sequences of Unicode code points, exceptions are
    values of type [exn] travelling through an error monad, the operating
    system is an oracle that answers each [subprocess.run] call, and the
    calls made so far are recorded in a log so that "no process was
    spawned" is a statement about that log. *)

From Stdlib Require Import String Ascii.
From stdpp Require Import base list gmap sorting.

Local Open Scope Z_scope.

(** ** Python strings *)

Module Py.

(** A [str] is a sequence of code points. *)
Definition str : Type := list N.

(** Literals of the source are written [py "..."]. *)
Fixpoint py (s : string) : str :=
  match s with
  | EmptyString => []
  | String a s' => N_of_ascii a :: py s'
  end.

(** [str.isspace] on one code point, the test [str.split] and [str.strip]
    use when they are called without a separator: the code points whose
    bidirectional class is WS, B or S, or whose category is Zs. *)
Definition isspace (c : N) : bool :=
  ((9 <=? c) && (c <=? 13) ||
   (28 <=? c) && (c <=? 32) ||
   (c =? 133) || (c =? 160) || (c =? 5760) ||
   (8192 <=? c) && (c <=? 8202) ||
   (c =? 8232) || (c =? 8233) || (c =? 8239) || (c =? 8287) ||
   (c =? 12288))%N.

(** [s.split()]: the maximal runs of non-space code points, in order.
    [tok] holds the run being read, last code point first. *)
Fixpoint split_from (tok : str) (s : str) : list str :=
  match s with
  | [] => match tok with [] => [] | _ => [rev tok] end
  | c :: s' =>
      if isspace c
      then match tok with
           | [] => split_from [] s'
           | _ => rev tok :: split_from [] s'
           end
      else split_from (c :: tok) s'
  end.

Definition split (s : str) : list str := split_from [] s.

Arguments py : simpl never.

(** [s.lstrip()] and [s.strip()]. *)
Fixpoint lstrip (s : str) : str :=
  match s with
  | [] => []
  | c :: s' => if isspace c then lstrip s' else s
  end.

Definition strip (s : str) : str := rev (lstrip (rev (lstrip s))).

(** Truth value of a string in a condition: non-empty. *)
Definition truthy (s : str) : bool :=
  match s with [] => false | _ => true end.

(** [a == b] on strings. *)
Definition eqb (a b : str) : bool := bool_decide (a = b).

(** [x in l] for a list [l] of strings. *)
Definition contains (l : list str) (x : str) : bool := bool_decide (x ∈ l).

(** [a <= b] on strings compares code point by code point, a proper prefix
    coming first; it is the order [sorted] produces. *)
Fixpoint leb (a b : str) : bool :=
  match a, b with
  | [], _ => true
  | _ :: _, [] => false
  | x :: a', y :: b' => (x <? y)%N || ((x =? y)%N && leb a' b')
  end.

Definition le (a b : str) : Prop := leb a b = true.

Global Instance le_dec : RelDecision le.
Proof. intros a b. unfold le. apply _. Defined.

(** [sorted(l)] for a list of strings. *)
Definition sorted (l : list str) : list str := merge_sort le l.

End Py.

Import Py.

(** ** Exceptions *)

(** The classes of exception the three functions can meet.  All of them
    derive from [Exception]; an exception of a class that is not named
    here ([ValueError], [UnicodeDecodeError], ...) is recorded with the
    nearest named class above it, [Exception] or [OSError]. *)
Inductive exn_class : Type :=
  | Exception
  | IndexError
  | KeyError
  | TimeoutExpired
  | OSError
  | PermissionError
  | NotADirectoryError
  | FileNotFoundError.

Global Instance exn_class_eq_dec : EqDecision exn_class.
Proof. solve_decision. Defined.

(** A raised exception: its class and the text [str(e)] gives. *)
Record exn : Type := Exn { exn_cls : exn_class; exn_str : str }.

(** Outcome of running a piece of code: a value, or a raised exception. *)
Inductive res (A : Type) : Type :=
  | Return (a : A)
  | Raise (e : exn).
Arguments Return {A} a.
Arguments Raise {A} e.

(** [issubclass c d] for the classes above. *)
Definition issubclass (c d : exn_class) : bool :=
  match d with
  | Exception => true
  | OSError =>
      match c with
      | OSError | PermissionError | NotADirectoryError | FileNotFoundError => true
      | _ => false
      end
  | _ => bool_decide (c = d)
  end.

(** ** Code with effects

    A computation reads and updates a mutable store of type [S] and either
    returns or raises.  The store is what the code mutates in place: the
    set [commands] for the discoverer, the log of [subprocess.run] calls
    for the executor.  What was written to the store before an exception is
    raised is still there when the exception is handled. *)

Module Eff.

Definition M (S A : Type) : Type := S -> res A * S.

Definition ret {S A} (a : A) : M S A := fun s => (Return a, s).

Definition raise {S A} (e : exn) : M S A := fun s => (Raise e, s).

Definition bind {S A B} (m : M S A) (k : A -> M S B) : M S B :=
  fun s =>
    match m s with
    | (Return a, s') => k a s'
    | (Raise e, s') => (Raise e, s')
    end.

Definition get {S} : M S S := fun s => (Return s, s).

Definition modify {S} (f : S -> S) : M S unit := fun s => (Return tt, f s).

(** A value or exception that does not touch the store. *)
Definition lift {S A} (r : res A) : M S A := fun s => (r, s).

(** One [except cls: handler] clause. *)
Definition clause (S A : Type) : Type := exn_class * (exn -> M S A).

(** The first clause whose class the exception is an instance of handles
    it; with no such clause the exception propagates. *)
Fixpoint dispatch {S A} (clauses : list (clause S A)) (e : exn) : M S A :=
  match clauses with
  | [] => raise e
  | (cls, handler) :: clauses' =>
      if issubclass (exn_cls e) cls then handler e else dispatch clauses' e
  end.

(** [try: body except ...: ...]. *)
Definition try_except {S A} (body : M S A) (clauses : list (clause S A)) : M S A :=
  fun s =>
    match body s with
    | (Return a, s') => (Return a, s')
    | (Raise e, s') => dispatch clauses e s'
    end.

(** [for x in l: body x], for a body that has no [break] and no [return]. *)
Fixpoint for_each {S B} (l : list B) (body : B -> M S unit) : M S unit :=
  match l with
  | [] => ret tt
  | x :: l' => bind (body x) (fun _ => for_each l' body)
  end.

End Eff.

Import Eff.

Declare Scope eff_scope.
Delimit Scope eff_scope with eff.
Notation "x <- c1 ;; c2" := (bind c1 (fun x => c2))
  (at level 100, c1 at next level, right associativity) : eff_scope.
Notation "c1 ;; c2" := (bind c1 (fun _ => c2))
  (at level 100, right associativity) : eff_scope.
Local Open Scope eff_scope.

(** ** The file system, as the discoverer sees it *)

Record filesystem : Type := {
  (** [os.path.exists(p)] *)
  path_exists : str -> bool;
  (** [os.listdir(p)]: the entries, or the [OSError] it raises *)
  listdir : str -> res (list str);
  (** [os.path.isfile(p)] *)
  isfile : str -> bool;
  (** [os.access(p, os.X_OK)] *)
  access_X_OK : str -> bool
}.

(** [os.path.join(a, b)] of [posixpath]. *)
Definition path_join (a b : str) : str :=
  match b with
  | 47%N :: _ => b
  | _ =>
      match last a with
      | None => b
      | Some 47%N => a ++ b
      | Some _ => a ++ py "/" ++ b
      end
  end.

(** ** The process layer, as the executor sees it *)

(** What [subprocess.run] returns. *)
Record CompletedProcess : Type := {
  returncode : Z;
  stdout : str;
  stderr : str
}.

(** One call [subprocess.run(args, shell=True, capture_output=True,
    text=True, timeout=timeout)]. *)
Record spawn : Type := Spawn { spawn_args : str; spawn_timeout : Z }.

(** The host: given the calls made so far, what the next call does.  It
    returns a [CompletedProcess] when the shell terminates in time, raises
    [TimeoutExpired] when it does not, and raises something else when the
    shell cannot be started or its output cannot be decoded. *)
Definition host : Type := list spawn -> str -> Z -> res CompletedProcess.

Definition subprocess_run (sh : host) (args : str) (timeout : Z)
  : M (list spawn) CompletedProcess :=
  fun log => (sh log args timeout, log ++ [Spawn args timeout]).

(** [l[0]]. *)
Definition first_item {S : Type} (l : list str) : M S str :=
  match l with
  | x :: _ => ret x
  | [] => raise (Exn IndexError (py "list index out of range"))
  end.

(** [d[k]] for a dict. *)
Definition getitem {S : Type} (d : gmap str str) (k : str) : M S str :=
  match d !! k with
  | Some v => ret v
  | None => raise (Exn KeyError k)
  end.

(** ** [get_bin_commands] *)

Definition bin_paths : list str :=
  [py "/bin"; py "/usr/bin"; py "/usr/local/bin"; py "/sbin"; py "/usr/sbin"].

Section Discoverer.

Variable fs : filesystem.

(** Body of the inner loop: [commands.add(item)] when [full_path] is a
    regular file the process may execute. *)
Definition visit_item (bin_path item : str) : M (gset str) unit :=
  let full_path := path_join bin_path item in
  if isfile fs full_path && access_X_OK fs full_path
  then modify (fun commands => {[item]} ∪ commands)
  else ret tt.

(** Body of the outer loop; [continue] in the handler is the last
    statement of the iteration. *)
Definition visit_dir (bin_path : str) : M (gset str) unit :=
  if path_exists fs bin_path
  then try_except
         (items <- lift (listdir fs bin_path) ;;
          for_each items (visit_item bin_path))
         [(PermissionError, fun _ => ret tt)]
  else ret tt.

(** The function, started with [commands = set()]. *)
Definition get_bin_commands : res (list str) :=
  fst ((for_each bin_paths visit_dir ;;
        commands <- get ;;
        ret (sorted (elements commands))) ∅).

End Discoverer.

(** ** [run_command_safe] *)

Definition dangerous_commands : list str :=
  [py "rm"; py "rmdir"; py "del"; py "format"; py "fdisk"; py "mkfs";
   py "dd"; py "shred"; py "wipe"; py "halt"; py "shutdown"; py "reboot";
   py "init"; py "kill"; py "killall"; py "pkill"; py "fuser"].

Definition safe_commands : gmap str str :=
  list_to_map
    [(py "ls", py "ls -la");
     (py "ps", py "ps aux");
     (py "df", py "df -h");
     (py "du", py "du -h --max-depth=1");
     (py "free", py "free -h");
     (py "top", py "top -b -n1");
     (py "netstat", py "netstat -tuln");
     (py "ss", py "ss -tuln")].

(** The tuple [(success, stdout, stderr)] the function returns. *)
Definition outcome : Type := bool * str * str.

(** The three shapes of that tuple, under the names the specification
    gives them. *)
Definition Ok (out err : str) : outcome := (true, out, err).
Definition Refused (reason : str) : outcome := (false, reason, py "").
Definition Failed (message : str) : outcome := (false, py "", message).

Section Executor.

Variable sh : host.

(** The source gives [timeout] the default 10; the number is only passed
    on to [subprocess.run]. *)
Definition run_command_safe (command : str) (timeout : Z)
  : M (list spawn) outcome :=
  try_except
    (base_cmd <- first_item (split command) ;;
     if contains dangerous_commands base_cmd
     then ret (false, py "Command blocked for safety reasons", py "")
     else
       command <- (if bool_decide (is_Some (safe_commands !! base_cmd))
                      && eqb command base_cmd
                   then getitem safe_commands base_cmd
                   else ret command) ;;
       result <- subprocess_run sh command timeout ;;
       ret (true, stdout result, stderr result))
    [(TimeoutExpired, fun _ => ret (false, py "", py "Command timed out"));
     (Exception, fun e => ret (false, py "", py "Error: " ++ exn_str e))].

(** ** [get_command_help] *)

Definition help_options : list str := [py "--help"; py "-h"; py "help"].

(** One iteration of the loop: [Some text] when the iteration executes a
    [return text], [None] when it falls through to the next one or leaves
    through the handler's [continue].  The source's single clause
    [except (subprocess.TimeoutExpired, Exception)] is written as two
    clauses with the same handler. *)
Definition help_attempt (command help_opt : str)
  : M (list spawn) (option str) :=
  try_except
    (let cmd := if eqb help_opt (py "help")
                then py "help " ++ command
                else command ++ py " " ++ help_opt in
     result <- subprocess_run sh cmd 5 ;;
     if (returncode result =? 0) && truthy (strip (stdout result))
     then ret (Some (stdout result))
     else if truthy (strip (stderr result))
          then ret (Some (stderr result))
          else ret None)
    [(TimeoutExpired, fun _ => ret None);
     (Exception, fun _ => ret None)].

Fixpoint help_loop (command : str) (options : list str)
  : M (list spawn) str :=
  match options with
  | [] => ret (py "No help information available")
  | help_opt :: options' =>
      returned <- help_attempt command help_opt ;;
      match returned with
      | Some text => ret text
      | None => help_loop command options'
      end
  end.

Definition get_command_help (command : str) : M (list spawn) str :=
  help_loop command help_options.

End Executor.

(** ** Two abbreviations used to state facts about [run_command_safe] *)

(** The command line handed to the shell for [command] whose first token is
    [base_cmd]. *)
Definition submitted (command base_cmd : str) : str :=
  match safe_commands !! base_cmd with
  | Some safer => if eqb command base_cmd then safer else command
  | None => command
  end.

(** How the [try] statement turns the answer of the host into the tuple. *)
Definition reported (answer : res CompletedProcess) : outcome :=
  match answer with
  | Return result => Ok (stdout result) (stderr result)
  | Raise e =>
      if bool_decide (exn_cls e = TimeoutExpired)
      then Failed (py "Command timed out")
      else Failed (py "Error: " ++ exn_str e)
  end.

(** ** Concrete hosts *)

Definition completed (rc : Z) (out err : string) : res CompletedProcess :=
  Return {| returncode := rc; stdout := py out; stderr := py err |}.

(** A host on which a few command lines are known; every other call fails
    to start a shell. *)
Definition host_demo : host := fun _ args _ =>
  if eqb args (py "ls -la") then completed 0 "total 0" ""
  else if eqb args (py "ls -1") then completed 0 "notes.txt" ""
  else if eqb args (py "echo rm") then completed 0 "rm" ""
  else if eqb args (py "ls /nonexistent")
       then completed 2 "" "ls: cannot access '/nonexistent': No such file or directory"
  else if eqb args (py "sleep 60")
       then Raise (Exn TimeoutExpired (py "Command 'sleep 60' timed out after 10 seconds"))
  else Raise (Exn OSError (py "[Errno 12] Cannot allocate memory")).

(** ** Abbreviation and concrete file systems for the discoverer *)

(** [name] is an entry of the listing of the existing directory [dir], and
    the path [dir/name] is a regular file the process may execute. *)
Definition found_in (fs : filesystem) (dir name : str) : Prop :=
  path_exists fs dir = true
  /\ exists items,
       listdir fs dir = Return items
       /\ name ∈ items
       /\ isfile fs (path_join dir name) = true
       /\ access_X_OK fs (path_join dir name) = true.

(** [/bin] holds two programs (one listed twice), a subdirectory and a file
    without the execute bit; [/sbin] exists and may not be listed; the
    other three directories do not exist. *)
Definition fs_demo : filesystem := {|
  path_exists p := eqb p (py "/bin") || eqb p (py "/sbin");
  listdir p :=
    if eqb p (py "/bin")
    then Return [py "ls"; py "cat"; py "X11"; py "README"; py "ls"]
    else Raise (Exn PermissionError (py "[Errno 13] Permission denied: '/sbin'"));
  isfile p := negb (eqb p (py "/bin/X11"));
  access_X_OK p := negb (eqb p (py "/bin/README"))
|}.

(** [/usr/local/bin] exists and is a regular file; nothing else exists. *)
Definition fs_local_bin_is_file : filesystem := {|
  path_exists p := eqb p (py "/usr/local/bin");
  listdir p :=
    Raise (Exn NotADirectoryError
             (py "[Errno 20] Not a directory: '/usr/local/bin'"));
  isfile p := eqb p (py "/usr/local/bin");
  access_X_OK p := eqb p (py "/usr/local/bin")
|}.

(** ** Abbreviations and a concrete host for the help lookup *)

(** What one iteration of the loop of [get_command_help] returns for an
    answer of the host, if it returns. *)
Definition help_text (answer : res CompletedProcess) : option str :=
  match answer with
  | Return result =>
      if (returncode result =? 0) && truthy (strip (stdout result))
      then Some (stdout result)
      else if truthy (strip (stderr result))
           then Some (stderr result)
           else None
  | Raise _ => None
  end.

(** The output captured from one attempt; nothing when it raised. *)
Definition captured (answer : res CompletedProcess) : str * str :=
  match answer with
  | Return result => (stdout result, stderr result)
  | Raise _ => (py "", py "")
  end.

(** The lookup as the specification words it: the first attempt whose
    captured stdout is non-empty, else the first non-empty stderr, else the
    fixed message. *)
Definition getHelp_as_worded (answers : list (res CompletedProcess)) : str :=
  match List.find truthy (map (fun a => fst (captured a)) answers) with
  | Some text => text
  | None =>
      match List.find truthy (map (fun a => snd (captured a)) answers) with
      | Some text => text
      | None => py "No help information available"
      end
  end.

(** A program [x] that rejects [--help] on stderr and prints its usage for
    [-h]; the shell has no [help] builtin. *)
Definition host_usage_on_h : host := fun _ args _ =>
  if eqb args (py "x --help")
  then completed 2 "" "x: unrecognized option '--help'"
  else if eqb args (py "x -h") then completed 0 "usage: x [file]" ""
  else completed 127 "" "sh: 1: help: not found".

(** ** The page: search box, command line, display of a result *)

(** [needle in hay] for two strings: [needle] occurs in [hay] as a run of
    consecutive code points. *)
Fixpoint starts_with (needle hay : str) : bool :=
  match needle, hay with
  | [], _ => true
  | _ :: _, [] => false
  | x :: needle', y :: hay' => (x =? y)%N && starts_with needle' hay'
  end.

Fixpoint occurs_in (needle hay : str) : bool :=
  starts_with needle hay
  || match hay with
     | [] => false
     | _ :: hay' => occurs_in needle hay'
     end.

Section Page.

(** [str.lower]; the case table of Unicode is taken as given. *)
Variable lower : str -> str.

(** The commands shown for a search term. *)
Definition filtered_commands (commands : list str) (search_term : str)
  : list str :=
  if truthy search_term
  then List.filter (fun cmd => occurs_in (lower search_term) (lower cmd)) commands
  else commands.

End Page.

(** The command line built from the selected command and the arguments
    box. *)
Definition full_command (selected_command custom_args : str) : str :=
  if truthy (strip custom_args)
  then selected_command ++ py " " ++ strip custom_args
  else selected_command.

(** One call that puts something on the page; [st_markdown] is always
    called with [unsafe_allow_html=True] here. *)
Inductive widget : Type :=
  | st_markdown (body : str)
  | st_success (body : str)
  | st_error (body : str).

(** The literal [<div class="cls">body</div>]; code point 34 is the double
    quote. *)
Definition div (cls : string) (body : str) : str :=
  py "<div class=" ++ [34%N] ++ py cls ++ [34%N] ++ py ">" ++ body ++ py "</div>".

(** What the page shows for the tuple [run_command_safe] returned; code
    point 9989 is the check mark, 9888 and 65039 the warning sign. *)
Definition show_result (r : outcome) : list widget :=
  let '(success, out, err) := r in
  if success
  then (if truthy out
        then [st_markdown (div "command-header" (9989%N :: py " Output:"));
              st_markdown (div "command-output" out)]
        else [st_success (py "Command executed successfully (no output)")])
       ++ (if truthy err
           then [st_markdown
                   (div "command-header" (9888%N :: 65039%N :: py " Warnings/Errors:"));
                 st_markdown (div "error-output" err)]
           else [])
  else [st_error (py "Command failed: " ++ err)].

(** The body of the Execute button: run the command line with the default
    timeout and show the result. *)
Definition on_execute (sh : host) (selected_command custom_args : str)
  : M (list spawn) (list widget) :=
  r <- run_command_safe sh (full_command selected_command custom_args) 10 ;;
  ret (show_result r).

(** A string made of one token: not empty, no whitespace in it. *)
Definition one_token (s : str) : Prop :=
  s <> [] /\ forallb (fun c => negb (isspace c)) s = true.

(** Lower case for the letters A to Z only, for examples. *)
Definition ascii_lower (s : str) : str :=
  map (fun c => if (65 <=? c)%N && (c <=? 90)%N then (c + 32)%N else c) s.

(** The file system [fs] with every directory listing passed through [f]:
    the same entries seen in another order, or with repeats. *)
Definition relist (f : list str -> list str) (fs : filesystem) : filesystem := {|
  path_exists := path_exists fs;
  listdir p :=
    match listdir fs p with
    | Return items => Return (f items)
    | Raise e => Raise e
    end;
  isfile := isfile fs;
  access_X_OK := access_X_OK fs
|}.

(** ** Inside [subprocess.run]

    What the shell started by one call did, before [subprocess.run] turns
    it into a return value or an exception.  With [text=True] the captured
    bytes are decoded strictly with the codec of the locale, stdout first
    and stderr second, and a failure of the codec is raised to the caller
    of [subprocess.run]. *)

(** The captured bytes of one stream: the text they decode to, or the
    [UnicodeDecodeError] the codec raises on them. *)
Inductive capture : Type :=
  | Text (text : str)
  | Undecodable (e : exn).

(** The shell terminated and closed its pipes within the timeout, with an
    exit status and two captured streams; or the timeout elapsed first; or
    no shell could be started. *)
Inductive process : Type :=
  | Exited (status : Z) (out err : capture)
  | TimedOut (text : str)
  | NotStarted (e : exn).

(** What [subprocess.run] makes of it. *)
Definition communicate (p : process) : res CompletedProcess :=
  match p with
  | Exited status (Text out) (Text err) =>
      Return {| returncode := status; stdout := out; stderr := err |}
  | Exited _ (Undecodable e) _ => Raise e
  | Exited _ (Text _) (Undecodable e) => Raise e
  | TimedOut text => Raise (Exn TimeoutExpired text)
  | NotStarted e => Raise e
  end.

(** The machine below the host: what each shell does, given the calls made
    so far. *)
Definition machine : Type := list spawn -> str -> Z -> process.

Definition host_of (m : machine) : host :=
  fun log args timeout => communicate (m log args timeout).

(** A machine on which [printf] writes the single byte 255, which is not
    UTF-8, and exits with status 0. *)
Definition machine_printf_byte : machine := fun _ args _ =>
  if eqb args (py "printf '\377'")
  then Exited 0
         (Undecodable
            (Exn Exception
               (py "'utf-8' codec can't decode byte 0xff in position 0: invalid start byte")))
         (Text (py ""))
  else Exited 127 (Text (py "")) (Text (py "sh: 1: not found")).


(** A decidable goal settled by evaluation. *)
Ltac by_evaluation := apply (bool_decide_unpack _); vm_compute; exact I.

(** * Properties *)

(** ** Strings *)

Lemma split_from_all_space (s : str) :
  forallb isspace s = true -> split_from [] s = [].
Proof.
  induction s as [|c s IH]; simpl; [done|].
  intros [Hc Hs]%andb_prop. rewrite Hc. auto.
Qed.

Lemma split_all_space (s : str) : forallb isspace s = true -> split s = [].
Proof. apply split_from_all_space. Qed.

Lemma contains_true (l : list str) (x : str) : contains l x = true <-> x ∈ l.
Proof. unfold contains. by rewrite bool_decide_eq_true. Qed.

Lemma contains_false (l : list str) (x : str) : contains l x = false <-> x ∉ l.
Proof. unfold contains. by rewrite bool_decide_eq_false. Qed.

(** ** The executor, one equation *)

Section ExecutorFacts.

Variable sh : host.

Lemma run_command_safe_eq (command : str) (timeout : Z) (log : list spawn) :
  run_command_safe sh command timeout log =
  match split command with
  | [] => (Return (Failed (py "Error: list index out of range")), log)
  | base_cmd :: _ =>
      if contains dangerous_commands base_cmd
      then (Return (Refused (py "Command blocked for safety reasons")), log)
      else (Return (reported (sh log (submitted command base_cmd) timeout)),
            log ++ [Spawn (submitted command base_cmd) timeout])
  end.
Proof.
  unfold run_command_safe, try_except, bind, first_item, submitted.
  destruct (split command) as [|base_cmd rest]; [reflexivity|].
  cbn [ret]. destruct (contains dangerous_commands base_cmd); [reflexivity|].
  unfold getitem, subprocess_run.
  destruct (safe_commands !! base_cmd) as [safer|] eqn:Hsafe.
  - rewrite bool_decide_eq_true_2 by eauto. cbn [andb].
    destruct (eqb command base_cmd); cbn [ret];
      (destruct (sh log _ timeout) as [result|e]; cbn; [reflexivity|];
       destruct (bool_decide (exn_cls e = TimeoutExpired)); reflexivity).
  - rewrite bool_decide_eq_false_2 by (intros [? ?]; congruence). cbn [andb ret].
    destruct (sh log command timeout) as [result|e]; cbn; [reflexivity|].
    destruct (bool_decide (exn_cls e = TimeoutExpired)); reflexivity.
Qed.

End ExecutorFacts.

(** ** The executor, claim by claim *)

Lemma reported_not_refused (answer : res CompletedProcess) (reason : str) :
  reported answer <> Refused reason.
Proof.
  destruct answer as [result|e]; cbn; [discriminate|].
  destruct (bool_decide (exn_cls e = TimeoutExpired)); discriminate.
Qed.

Lemma safe_commands_not_dangerous (name safer : str) :
  safe_commands !! name = Some safer -> name ∉ dangerous_commands.
Proof.
  intros H%elem_of_list_to_map_2.
  apply contains_false.
  repeat (apply elem_of_cons in H as [H|H];
          [injection H as -> ->; vm_compute; reflexivity|]).
  by apply elem_of_nil in H.
Qed.

(** C1. When the first whitespace-delimited token of the command line is an
    entry of the denylist, [run_command_safe] returns the refusal tuple
    with the fixed reason and the log of [subprocess.run] calls is
    unchanged, whatever follows the token; when the first token is not an
    entry, the result is never a refusal, whatever the later tokens are. *)
Theorem denylist_decides_on_first_token
    (sh : host) (command : str) (timeout : Z) (log : list spawn)
    (base_cmd : str) (rest : list str) :
  split command = base_cmd :: rest ->
  (base_cmd ∈ dangerous_commands ->
     run_command_safe sh command timeout log
     = (Return (Refused (py "Command blocked for safety reasons")), log))
  /\ (base_cmd ∉ dangerous_commands ->
        forall reason,
          fst (run_command_safe sh command timeout log) <> Return (Refused reason)).
Proof.
  intros Hsplit. rewrite run_command_safe_eq, Hsplit. split.
  - intros Hin%contains_true. by rewrite Hin.
  - intros Hout%contains_false reason. rewrite Hout. cbn [fst].
    intros [=Heq]. by eapply reported_not_refused.
Qed.

Lemma denylist_decides_on_first_token_witness :
  run_command_safe host_demo (py "rm -rf /") 10 []
  = (Return (Refused (py "Command blocked for safety reasons")), [])
  /\ forall reason,
       fst (run_command_safe host_demo (py "echo rm") 10 []) <> Return (Refused reason).
Proof.
  split.
  - apply (denylist_decides_on_first_token host_demo (py "rm -rf /") 10 []
             (py "rm") [py "-rf"; py "/"]); [reflexivity | by_evaluation].
  - apply (denylist_decides_on_first_token host_demo (py "echo rm") 10 []
             (py "echo") [py "rm"]); [reflexivity | by_evaluation].
Defined.

(** C2. For a program name of the safe-flag mapping that is the first token
    of the command line, the command line handed to [subprocess.run] is
    the mapped form when the whole command line equals the bare name, and
    the command line itself, unmodified, otherwise. *)
Theorem safe_flags_only_for_bare_name
    (sh : host) (name safer command : str) (rest : list str)
    (timeout : Z) (log : list spawn) :
  safe_commands !! name = Some safer ->
  split command = name :: rest ->
  snd (run_command_safe sh command timeout log)
  = log ++ [Spawn (if bool_decide (command = name) then safer else command) timeout].
Proof.
  intros Hsafe Hsplit. rewrite run_command_safe_eq, Hsplit.
  pose proof (proj2 (contains_false _ _)
                (safe_commands_not_dangerous _ _ Hsafe)) as Hout.
  rewrite Hout. cbn [snd]. unfold submitted, eqb. by rewrite Hsafe.
Qed.

Lemma safe_flags_only_for_bare_name_witness :
  snd (run_command_safe host_demo (py "ls") 10 []) = [Spawn (py "ls -la") 10]
  /\ snd (run_command_safe host_demo (py "ls -1") 10 []) = [Spawn (py "ls -1") 10].
Proof.
  split.
  - apply (safe_flags_only_for_bare_name host_demo (py "ls") (py "ls -la")
             (py "ls") [] 10 []); reflexivity.
  - apply (safe_flags_only_for_bare_name host_demo (py "ls") (py "ls -la")
             (py "ls -1") [py "-1"] 10 []); reflexivity.
Defined.

(** C3, as the code has it.  When the first token is not on the denylist,
    exactly one call to [subprocess.run] is made, and if that call returns
    a completed process (the shell terminated within the timeout and its
    captured output was decoded as text) the result is [Ok] with the
    captured output, for every return code. *)
Theorem completed_process_is_ok
    (sh : host) (command : str) (timeout : Z) (log : list spawn)
    (base_cmd : str) (rest : list str) :
  split command = base_cmd :: rest ->
  base_cmd ∉ dangerous_commands ->
  exists args,
    snd (run_command_safe sh command timeout log) = log ++ [Spawn args timeout]
    /\ forall rc out err,
         sh log args timeout
         = Return {| returncode := rc; stdout := out; stderr := err |} ->
         fst (run_command_safe sh command timeout log) = Return (Ok out err).
Proof.
  intros Hsplit Hout%contains_false.
  exists (submitted command base_cmd).
  rewrite run_command_safe_eq, Hsplit, Hout. cbn [fst snd].
  split; [reflexivity|]. intros rc out err ->. reflexivity.
Qed.

Lemma completed_process_is_ok_witness :
  fst (run_command_safe host_demo (py "ls /nonexistent") 10 [])
  = Return (Ok (py "")
               (py "ls: cannot access '/nonexistent': No such file or directory")).
Proof.
  destruct (completed_process_is_ok host_demo (py "ls /nonexistent") 10 []
              (py "ls") [py "/nonexistent"]) as (args & Hlog & Hok);
    [reflexivity | by_evaluation |].
  vm_compute in Hlog. injection Hlog as <-.
  apply (Hok 2). reflexivity.
Defined.

(** C3, as stated, fails: a shell that terminates normally within the
    timeout, with exit status 0, but writes a byte the codec rejects makes
    [subprocess.run] raise [UnicodeDecodeError], and the result is [Failed],
    not [Ok]. *)
Lemma undecodable_output_is_a_failure :
  split (py "printf '\377'") = [py "printf"; py "'\377'"]
  /\ (py "printf" ∉ dangerous_commands)
  /\ machine_printf_byte [] (py "printf '\377'") 10
     = Exited 0
         (Undecodable
            (Exn Exception
               (py "'utf-8' codec can't decode byte 0xff in position 0: invalid start byte")))
         (Text (py ""))
  /\ run_command_safe (host_of machine_printf_byte) (py "printf '\377'") 10 []
     = (Return
          (Failed
             (py "Error: 'utf-8' codec can't decode byte 0xff in position 0: invalid start byte")),
        [Spawn (py "printf '\377'") 10])
  /\ forall out err,
       fst (run_command_safe (host_of machine_printf_byte) (py "printf '\377'") 10 [])
       <> Return (Ok out err).
Proof.
  split; [vm_compute; reflexivity|].
  split; [by_evaluation|].
  split; [vm_compute; reflexivity|].
  assert (run_command_safe (host_of machine_printf_byte) (py "printf '\377'") 10 []
          = (Return
               (Failed
                  (py "Error: 'utf-8' codec can't decode byte 0xff in position 0: invalid start byte")),
             [Spawn (py "printf '\377'") 10])) as Hrun
    by (vm_compute; reflexivity).
  split; [exact Hrun|].
  intros out err. rewrite Hrun. discriminate.
Qed.




(** C5. For every command line, timeout, host and log, [run_command_safe]
    returns a tuple and does not raise; the tuple has one of the three
    shapes [Ok], [Refused], [Failed]. *)
Theorem run_command_safe_total
    (sh : host) (command : str) (timeout : Z) (log : list spawn) :
  exists r,
    fst (run_command_safe sh command timeout log) = Return r
    /\ ((exists out err, r = Ok out err)
        \/ (exists reason, r = Refused reason)
        \/ (exists message, r = Failed message)).
Proof.
  rewrite run_command_safe_eq.
  destruct (split command) as [|base_cmd rest]; [by eauto 6|].
  destruct (contains dangerous_commands base_cmd); [by eauto 6|].
  cbn [fst]. eexists; split; [reflexivity|].
  destruct (sh log _ timeout) as [result|e]; cbn; [by eauto 6|].
  destruct (bool_decide (exn_cls e = TimeoutExpired)); by eauto 6.
Qed.

(** C9. For a command line made of whitespace only, the empty one included,
    taking the first token raises [IndexError], and the result is
    [Failed "Error: list index out of range"] with the log of
    [subprocess.run] calls unchanged: nothing is refused and nothing is
    spawned. *)
Theorem blank_command_is_index_error
    (sh : host) (command : str) (timeout : Z) (log : list spawn) :
  forallb isspace command = true ->
  first_item (split command) log
  = (Raise (Exn IndexError (py "list index out of range")), log)
  /\ run_command_safe sh command timeout log
     = (Return (Failed (py "Error: list index out of range")), log).
Proof.
  intros Hblank%split_all_space.
  by rewrite run_command_safe_eq, Hblank.
Qed.

Lemma blank_command_is_index_error_witness :
  run_command_safe host_demo (py "") 10 []
  = (Return (Failed (py "Error: list index out of range")), [])
  /\ run_command_safe host_demo (9%N :: py "  ") 10 []
     = (Return (Failed (py "Error: list index out of range")), []).
Proof.
  split.
  - apply (blank_command_is_index_error host_demo (py "") 10 []). reflexivity.
  - apply (blank_command_is_index_error host_demo (9%N :: py "  ") 10 []).
    reflexivity.
Defined.

(** C10. The two outcomes that are not a success put their message in
    opposite components of the tuple.  For a denylisted first token the
    tuple is [(False, reason, "")]: the reason is the second component and
    the third is empty.  For any other first token one call to
    [subprocess.run] is made, and when it raises, by timeout or otherwise,
    the tuple is [(False, "", message)]: the second component is empty and
    the third is the non-empty message.  Conversely every tuple whose first
    component is [False] has one of these two shapes. *)
Theorem message_slot_depends_on_outcome
    (sh : host) (command : str) (timeout : Z) (log : list spawn) :
  (forall base_cmd rest,
     split command = base_cmd :: rest -> base_cmd ∈ dangerous_commands ->
     fst (run_command_safe sh command timeout log)
     = Return (false, py "Command blocked for safety reasons", py ""))
  /\ (forall base_cmd rest,
        split command = base_cmd :: rest -> base_cmd ∉ dangerous_commands ->
        exists args,
          snd (run_command_safe sh command timeout log) = log ++ [Spawn args timeout]
          /\ forall e,
               sh log args timeout = Raise e ->
               exists message,
                 message = (if bool_decide (exn_cls e = TimeoutExpired)
                            then py "Command timed out"
                            else py "Error: " ++ exn_str e)
                 /\ message <> py ""
                 /\ fst (run_command_safe sh command timeout log)
                    = Return (false, py "", message))
  /\ (forall out err,
        fst (run_command_safe sh command timeout log) = Return (false, out, err) ->
        (out = py "Command blocked for safety reasons" /\ err = py ""
         /\ exists base_cmd rest,
              split command = base_cmd :: rest /\ base_cmd ∈ dangerous_commands)
        \/ (out = py "" /\ err <> py ""
            /\ (err = py "Command timed out"
                \/ exists detail, err = py "Error: " ++ detail)
            /\ forall base_cmd rest,
                 split command = base_cmd :: rest -> base_cmd ∉ dangerous_commands)).
Proof.
  rewrite run_command_safe_eq. split; [|split].
  - intros base_cmd rest -> Hin%contains_true. by rewrite Hin.
  - intros base_cmd rest -> Hout%contains_false. rewrite Hout. cbn [fst snd].
    exists (submitted command base_cmd). split; [reflexivity|].
    intros e ->. cbn. eexists. split; [reflexivity|].
    destruct (bool_decide (exn_cls e = TimeoutExpired)); split;
      (discriminate || reflexivity).
  - intros out err.
    destruct (split command) as [|base_cmd rest] eqn:Hsplit.
    + intros [= <- <-]. right. repeat split; [discriminate | eauto | discriminate].
    + destruct (contains dangerous_commands base_cmd) eqn:Hdanger.
      * intros [= <- <-]. left. apply contains_true in Hdanger. eauto 6.
      * apply contains_false in Hdanger. cbn [fst]. intros Heq. right.
        destruct (sh log _ timeout) as [result|e]; [discriminate|].
        cbn in Heq.
        destruct (bool_decide (exn_cls e = TimeoutExpired));
          injection Heq as <- <-;
          (repeat split;
           [discriminate | eauto | intros b r Hbr; by injection Hbr as <- _]).
Qed.

Lemma message_slot_depends_on_outcome_witness :
  fst (run_command_safe host_demo (py "kill -9 1") 10 [])
  = Return (false, py "Command blocked for safety reasons", py "")
  /\ fst (run_command_safe host_demo (py "sleep 60") 10 [])
     = Return (false, py "", py "Command timed out")
  /\ fst (run_command_safe host_demo (py "uptime") 10 [])
     = Return (false, py "", py "Error: [Errno 12] Cannot allocate memory").
Proof.
  split; [|split].
  - destruct (message_slot_depends_on_outcome host_demo (py "kill -9 1") 10 [])
      as (Hrefused & _).
    apply (Hrefused (py "kill") [py "-9"; py "1"]); [reflexivity | by_evaluation].
  - destruct (message_slot_depends_on_outcome host_demo (py "sleep 60") 10 [])
      as (_ & Hfailed & _).
    destruct (Hfailed (py "sleep") [py "60"]) as (args & Hlog & Hraise);
      [reflexivity | by_evaluation |].
    vm_compute in Hlog. injection Hlog as <-.
    destruct (Hraise (Exn TimeoutExpired
                        (py "Command 'sleep 60' timed out after 10 seconds")))
      as (message & -> & _ & Hrun); [reflexivity | exact Hrun].
  - destruct (message_slot_depends_on_outcome host_demo (py "uptime") 10 [])
      as (_ & Hfailed & _).
    destruct (Hfailed (py "uptime") []) as (args & Hlog & Hraise);
      [reflexivity | by_evaluation |].
    vm_compute in Hlog. injection Hlog as <-.
    destruct (Hraise (Exn OSError (py "[Errno 12] Cannot allocate memory")))
      as (message & -> & _ & Hrun); [reflexivity | exact Hrun].
Defined.

(** ** The order of strings *)

Global Instance le_total : Total le.
Proof.
  intros a. unfold le. induction a as [|x a IH]; intros [|y b]; cbn; auto.
  destruct (N.ltb_spec x y), (N.ltb_spec y x), (N.eqb_spec x y), (N.eqb_spec y x);
    cbn; auto; lia.
Qed.

Global Instance le_trans : Transitive le.
Proof.
  intros a. unfold le. induction a as [|x a IH]; intros [|y b] [|z c]; cbn; auto;
    try discriminate.
  destruct (N.ltb_spec x y), (N.ltb_spec y z), (N.ltb_spec x z),
           (N.eqb_spec x y), (N.eqb_spec y z), (N.eqb_spec x z);
    cbn; eauto; try lia; discriminate.
Qed.

Lemma sorted_StronglySorted (l : list str) : StronglySorted le (sorted l).
Proof. apply StronglySorted_merge_sort; apply _. Qed.

Lemma sorted_elem_of (l : list str) (x : str) : x ∈ sorted l <-> x ∈ l.
Proof. unfold sorted. by rewrite merge_sort_Permutation. Qed.

Lemma sorted_NoDup (l : list str) : NoDup l -> NoDup (sorted l).
Proof. unfold sorted. by rewrite merge_sort_Permutation. Qed.

(** ** The discoverer, loop by loop *)

Section DiscovererFacts.

Variable fs : filesystem.

(** The inner loop never raises and adds the executable regular files. *)
Lemma visit_items_spec (dir : str) (items : list str) (commands : gset str) :
  exists commands',
    for_each items (visit_item fs dir) commands = (Return tt, commands')
    /\ forall name,
         name ∈ commands' <->
         name ∈ commands
         \/ (name ∈ items
             /\ isfile fs (path_join dir name) = true
             /\ access_X_OK fs (path_join dir name) = true).
Proof.
  revert commands. induction items as [|item items IH]; intros commands.
  - exists commands. split; [reflexivity|]. intros name.
    split; [by left | intros [Hin|[Hnil _]]; [done | by apply elem_of_nil in Hnil]].
  - cbn [for_each]. unfold bind at 1. unfold visit_item at 1.
    destruct (isfile fs (path_join dir item) && access_X_OK fs (path_join dir item))
      eqn:Hkeep; cbn [modify ret].
    + destruct (IH ({[item]} ∪ commands)) as (commands' & -> & Hmem).
      exists commands'. split; [reflexivity|]. intros name. rewrite Hmem.
      apply andb_prop in Hkeep as [Hfile Hexec].
      rewrite elem_of_union, elem_of_singleton, elem_of_cons.
      intuition (subst; auto).
    + destruct (IH commands) as (commands' & -> & Hmem).
      exists commands'. split; [reflexivity|]. intros name. rewrite Hmem.
      rewrite elem_of_cons.
      apply andb_false_iff in Hkeep. intuition (subst; auto; congruence).
Qed.

(** One directory: either it is skipped or scanned, or its listing raised
    something that is not a [PermissionError]. *)
Lemma visit_dir_spec (dir : str) (commands : gset str) :
  match visit_dir fs dir commands with
  | (Return _, commands') =>
      forall name, name ∈ commands' <-> name ∈ commands \/ found_in fs dir name
  | (Raise e, _) =>
      path_exists fs dir = true
      /\ listdir fs dir = Raise e
      /\ exn_cls e <> PermissionError
  end.
Proof.
  unfold visit_dir, found_in.
  destruct (path_exists fs dir) eqn:Hexists; cbn [ret].
  - unfold try_except, bind, lift.
    destruct (listdir fs dir) as [items|e] eqn:Hlist.
    + destruct (visit_items_spec dir items commands) as (commands' & -> & Hmem).
      intros name. rewrite Hmem. split.
      * intros [?|(?&?&?)]; [by left|]. right. split; [done|]. by exists items.
      * intros [?|(_ & items' & [= <-] & ? & ? & ?)]; auto.
    + cbn [dispatch]. unfold issubclass.
      destruct (bool_decide (exn_cls e = PermissionError)) eqn:Hcls; cbn [ret raise].
      * intros name. split; [by left|].
        intros [?|(_ & items & ? & _)]; [done | discriminate].
      * apply bool_decide_eq_false in Hcls. auto.
  - intros name. split; [by left|]. intros [?|(? & _)]; [done | discriminate].
Qed.

(** The outer loop over any list of directories. *)
Lemma visit_dirs_spec (dirs : list str) (commands : gset str) :
  match for_each dirs (visit_dir fs) commands with
  | (Return _, commands') =>
      forall name,
        name ∈ commands' <->
        name ∈ commands \/ exists dir, dir ∈ dirs /\ found_in fs dir name
  | (Raise e, _) =>
      exists dir,
        dir ∈ dirs
        /\ path_exists fs dir = true
        /\ listdir fs dir = Raise e
        /\ exn_cls e <> PermissionError
  end.
Proof.
  revert commands. induction dirs as [|dir dirs IH]; intros commands.
  - cbn. intros name. split; [by left|]. intros [?|(dir & Hin & _)]; [done|].
    by apply elem_of_nil in Hin.
  - cbn [for_each]. unfold bind.
    pose proof (visit_dir_spec dir commands) as Hdir.
    destruct (visit_dir fs dir commands) as [[[]|e] commands1].
    + specialize (IH commands1).
      destruct (for_each dirs (visit_dir fs) commands1) as [[[]|e] commands2].
      * intros name. rewrite IH, Hdir. setoid_rewrite elem_of_cons. split.
        -- intros [[?|?]|(d & ? & ?)]; eauto.
        -- intros [?|(d & [->|?] & ?)]; eauto.
      * destruct IH as (d & ? & ?). exists d. rewrite elem_of_cons. auto.
    + exists dir. rewrite elem_of_cons. auto.
Qed.

Lemma get_bin_commands_eq :
  get_bin_commands fs =
  match for_each bin_paths (visit_dir fs) ∅ with
  | (Return _, commands) => Return (sorted (elements commands))
  | (Raise e, _) => Raise e
  end.
Proof.
  unfold get_bin_commands, bind.
  by destruct (for_each bin_paths (visit_dir fs) ∅) as [[[]|e] commands].
Qed.

End DiscovererFacts.

(** ** The discoverer, claim by claim *)

(** C6. A catalog returned by [get_bin_commands] is sorted in the order of
    strings, has no duplicate, and each of its names is listed in an
    existing candidate directory where it is a regular file the process
    may execute. *)
Theorem catalog_sorted_distinct_executable
    (fs : filesystem) (catalog : list str) :
  get_bin_commands fs = Return catalog ->
  StronglySorted le catalog
  /\ NoDup catalog
  /\ forall name,
       name ∈ catalog -> exists dir, dir ∈ bin_paths /\ found_in fs dir name.
Proof.
  rewrite get_bin_commands_eq.
  pose proof (visit_dirs_spec fs bin_paths ∅) as Hscan.
  destruct (for_each bin_paths (visit_dir fs) ∅) as [[[]|e] commands];
    [|discriminate].
  intros [= <-]. split; [apply sorted_StronglySorted|].
  split; [apply sorted_NoDup, NoDup_elements|].
  intros name Hin%sorted_elem_of%elem_of_elements.
  apply Hscan in Hin as [Hempty|Hfound]; [|exact Hfound].
  by apply not_elem_of_empty in Hempty.
Qed.

Lemma catalog_sorted_distinct_executable_witness :
  StronglySorted le [py "cat"; py "ls"]
  /\ NoDup [py "cat"; py "ls"]
  /\ forall name,
       name ∈ [py "cat"; py "ls"] ->
       exists dir, dir ∈ bin_paths /\ found_in fs_demo dir name.
Proof.
  apply (catalog_sorted_distinct_executable fs_demo [py "cat"; py "ls"]).
  vm_compute. reflexivity.
Defined.

(** C7, as the code has it.  When no existing candidate directory raises
    anything but [PermissionError] on listing, [get_bin_commands] returns a
    catalog, and its names are exactly the executable regular files listed
    in the candidate directories that exist and can be listed: a missing
    directory and a directory that may not be listed contribute nothing
    and raise nothing.  When every candidate directory is missing or may
    not be listed, the catalog is empty. *)
Theorem discovery_skips_missing_and_forbidden (fs : filesystem) :
  (forall dir e,
     dir ∈ bin_paths -> path_exists fs dir = true ->
     listdir fs dir = Raise e -> exn_cls e = PermissionError) ->
  exists catalog,
    get_bin_commands fs = Return catalog
    /\ (forall name,
          name ∈ catalog <-> exists dir, dir ∈ bin_paths /\ found_in fs dir name)
    /\ ((forall dir,
           dir ∈ bin_paths ->
           path_exists fs dir = false \/ exists e, listdir fs dir = Raise e) ->
        catalog = []).
Proof.
  intros Hperm. rewrite get_bin_commands_eq.
  pose proof (visit_dirs_spec fs bin_paths ∅) as Hscan.
  destruct (for_each bin_paths (visit_dir fs) ∅) as [[[]|e] commands].
  - assert (forall name,
              name ∈ sorted (elements commands) <->
              exists dir, dir ∈ bin_paths /\ found_in fs dir name) as Hnames.
    { intros name. rewrite sorted_elem_of, elem_of_elements, Hscan.
      split; [|by right]. intros [Hempty|Hfound]; [|exact Hfound].
      by apply not_elem_of_empty in Hempty. }
    eexists. split; [reflexivity|]. split; [exact Hnames|].
    intros Hnone. destruct (sorted (elements commands)) as [|name catalog];
      [reflexivity|].
    destruct (proj1 (Hnames name)) as (dir & Hdir & Hexists & items & Hlist & _);
      [apply elem_of_cons; by left|].
    destruct (Hnone dir Hdir) as [Hmissing|[e Hraise]]; congruence.
  - destruct Hscan as (dir & Hin & Hexists & Hlist & Hcls).
    destruct Hcls. eauto.
Qed.

Lemma discovery_skips_missing_and_forbidden_witness :
  exists catalog,
    get_bin_commands fs_demo = Return catalog
    /\ (forall name,
          name ∈ catalog <->
          exists dir, dir ∈ bin_paths /\ found_in fs_demo dir name)
    /\ ((forall dir,
           dir ∈ bin_paths ->
           path_exists fs_demo dir = false
           \/ exists e, listdir fs_demo dir = Raise e) ->
        catalog = []).
Proof.
  apply (discovery_skips_missing_and_forbidden fs_demo).
  intros dir e Hdir. unfold bin_paths in Hdir.
  rewrite !elem_of_cons, elem_of_nil in Hdir.
  destruct Hdir as [->|[->|[->|[->|[->|[]]]]]];
    vm_compute; intros Hexists Hlist;
    first [discriminate | injection Hlist as <-; reflexivity].
Defined.

(** C7, as stated, fails: when [/usr/local/bin] exists and is a regular
    file, [os.listdir] raises [NotADirectoryError], which the handler for
    [PermissionError] does not catch, and [get_bin_commands] raises. *)
Lemma discovery_raises_on_file_in_place_of_directory :
  get_bin_commands fs_local_bin_is_file
  = Raise (Exn NotADirectoryError
             (py "[Errno 20] Not a directory: '/usr/local/bin'"))
  /\ ~ (forall fs, exists catalog, get_bin_commands fs = Return catalog).
Proof.
  assert (get_bin_commands fs_local_bin_is_file
          = Raise (Exn NotADirectoryError
                     (py "[Errno 20] Not a directory: '/usr/local/bin'")))
    as Hraise by (vm_compute; reflexivity).
  split; [exact Hraise|].
  intros Htotal. destruct (Htotal fs_local_bin_is_file) as [catalog Hret].
  rewrite Hraise in Hret. discriminate.
Qed.

(** ** The help lookup *)

Section HelpFacts.

Variable sh : host.

Lemma help_attempt_eq (command help_opt : str) (log : list spawn) :
  let cmd := if eqb help_opt (py "help")
             then py "help " ++ command
             else command ++ py " " ++ help_opt in
  help_attempt sh command help_opt log
  = (Return (help_text (sh log cmd 5)), log ++ [Spawn cmd 5]).
Proof.
  intros cmd. unfold help_attempt, try_except, bind, subprocess_run.
  fold cmd. unfold help_text.
  destruct (sh log cmd 5) as [result|e]; cbn [dispatch].
  - destruct ((returncode result =? 0) && truthy (strip (stdout result)));
      [reflexivity|].
    destruct (truthy (strip (stderr result))); reflexivity.
  - unfold issubclass. destruct (bool_decide (exn_cls e = TimeoutExpired));
      reflexivity.
Qed.

End HelpFacts.

(** C8, as the code has it.  [get_command_help] runs [<command> --help],
    then [<command> -h], then [help <command>], each with a timeout of 5,
    and stops at the first attempt that returns: an attempt returns its
    stdout when the return code is 0 and the stdout holds a non-space
    character, otherwise its stderr when that holds a non-space character;
    an attempt that raises returns nothing.  When no attempt returns, the
    result is the fixed message. *)
Theorem help_lookup_stops_at_first_usable_attempt
    (sh : host) (command : str) (log : list spawn) :
  let log1 := log ++ [Spawn (command ++ py " --help") 5] in
  let log2 := log1 ++ [Spawn (command ++ py " -h") 5] in
  let log3 := log2 ++ [Spawn (py "help " ++ command) 5] in
  get_command_help sh command log =
  match help_text (sh log (command ++ py " --help") 5) with
  | Some text => (Return text, log1)
  | None =>
      match help_text (sh log1 (command ++ py " -h") 5) with
      | Some text => (Return text, log2)
      | None =>
          match help_text (sh log2 (py "help " ++ command) 5) with
          | Some text => (Return text, log3)
          | None => (Return (py "No help information available"), log3)
          end
      end
  end.
Proof.
  intros log1 log2 log3. unfold get_command_help, help_options.
  cbn [help_loop]. unfold bind at 1. rewrite help_attempt_eq.
  change (eqb (py "--help") (py "help")) with false. cbv iota.
  change (py " " ++ py "--help") with (py " --help"). fold log1.
  destruct (help_text (sh log _ 5)) as [text|]; [reflexivity|].
  unfold bind at 1. rewrite help_attempt_eq.
  change (eqb (py "-h") (py "help")) with false. cbv iota.
  change (py " " ++ py "-h") with (py " -h"). fold log2.
  destruct (help_text (sh log1 _ 5)) as [text|]; [reflexivity|].
  unfold bind at 1. rewrite help_attempt_eq.
  change (eqb (py "help") (py "help")) with true. cbv iota. fold log3.
  destruct (help_text (sh log2 _ 5)) as [text|]; reflexivity.
Qed.

(** C8, as stated, fails: the first attempt writes only to stderr and the
    second prints its usage on stdout; as worded the lookup returns the
    usage, the code returns the first attempt's stderr. *)
Lemma help_lookup_prefers_earlier_stderr :
  fst (get_command_help host_usage_on_h (py "x") [])
  = Return (py "x: unrecognized option '--help'")
  /\ getHelp_as_worded
       (map (fun args => host_usage_on_h [] args 5)
            [py "x --help"; py "x -h"; py "help x"])
     = py "usage: x [file]"
  /\ fst (get_command_help host_usage_on_h (py "x") [])
     <> Return (getHelp_as_worded
                  (map (fun args => host_usage_on_h [] args 5)
                       [py "x --help"; py "x -h"; py "help x"])).
Proof.
  repeat split; try (vm_compute; reflexivity).
  vm_compute. discriminate.
Qed.

(** * Further properties *)

(** ** More on [split] and [strip] *)

Lemma split_from_space_prefix (ws s : str) :
  forallb isspace ws = true -> split_from [] (ws ++ s) = split_from [] s.
Proof.
  induction ws as [|c ws IH]; cbn; [done|].
  intros [Hc Hws]%andb_prop. rewrite Hc. auto.
Qed.

Lemma split_from_space_suffix (tok s ws : str) :
  forallb isspace ws = true -> split_from tok (s ++ ws) = split_from tok s.
Proof.
  intros Hws. revert tok. induction s as [|c s IH]; intros tok.
  - cbn [app]. revert tok. induction ws as [|c ws IHws]; intros tok; [done|].
    cbn in Hws |- *. apply andb_prop in Hws as [Hc Hws]. rewrite Hc.
    destruct tok; rewrite (IHws Hws); reflexivity.
  - cbn. destruct (isspace c); [destruct tok|]; by rewrite ?IH.
Qed.

Lemma split_padding (ws1 s ws2 : str) :
  forallb isspace ws1 = true -> forallb isspace ws2 = true ->
  split (ws1 ++ s ++ ws2) = split s.
Proof.
  intros H1 H2. unfold split.
  by rewrite split_from_space_prefix, split_from_space_suffix.
Qed.

Lemma split_from_token (tok name rest : str) :
  forallb (fun c => negb (isspace c)) name = true ->
  split_from tok (name ++ rest) = split_from (rev name ++ tok) rest.
Proof.
  revert tok. induction name as [|c name IH]; intros tok; cbn; [done|].
  intros [Hc Hname]%andb_prop. apply negb_true_iff in Hc. rewrite Hc.
  rewrite IH by done. by rewrite <- app_assoc.
Qed.

Lemma rev_eq_nil (l : str) : rev l = [] -> l = [].
Proof. intros Hrev. by rewrite <- (rev_involutive l), Hrev. Qed.

Lemma split_one_token (name : str) : one_token name -> split name = [name].
Proof.
  intros [Hne Hname]. unfold split.
  rewrite <- (app_nil_r name) at 1. rewrite split_from_token by done.
  rewrite app_nil_r. cbn. destruct (rev name) eqn:Hrev.
  - by apply rev_eq_nil in Hrev.
  - by rewrite <- Hrev, rev_involutive.
Qed.

Lemma split_token_then_space (name rest : str) :
  one_token name -> split (name ++ py " " ++ rest) = name :: split rest.
Proof.
  intros [Hne Hname]. unfold split.
  rewrite split_from_token by done. rewrite app_nil_r.
  change (py " " ++ rest) with (32%N :: rest). cbn.
  destruct (rev name) eqn:Hrev.
  - by apply rev_eq_nil in Hrev.
  - by rewrite <- Hrev, rev_involutive.
Qed.

(** ** More on the executor *)

Lemma safe_key_one_token (name safer : str) :
  safe_commands !! name = Some safer -> one_token name.
Proof.
  intros H%elem_of_list_to_map_2.
  repeat (apply elem_of_cons in H as [H|H];
          [injection H as -> ->; split; [discriminate | vm_compute; reflexivity]|]).
  by apply elem_of_nil in H.
Qed.

(** X1. One call of [run_command_safe] starts at most one shell.  Either
    the log is unchanged, and then the result is the refusal or the
    index error of a blank line; or one call with the caller's timeout is
    added, whose command line is the caller's line itself or, only when
    that whole line is a key of [safe_commands], the mapped form. *)
Theorem at_most_one_shell_with_the_callers_line
    (sh : host) (command : str) (timeout : Z) (log : list spawn) :
  (snd (run_command_safe sh command timeout log) = log
   /\ (fst (run_command_safe sh command timeout log)
       = Return (Refused (py "Command blocked for safety reasons"))
       \/ fst (run_command_safe sh command timeout log)
          = Return (Failed (py "Error: list index out of range"))))
  \/ exists args,
       snd (run_command_safe sh command timeout log) = log ++ [Spawn args timeout]
       /\ (args = command \/ safe_commands !! command = Some args).
Proof.
  rewrite run_command_safe_eq.
  destruct (split command) as [|base_cmd rest]; [left; auto|].
  destruct (contains dangerous_commands base_cmd); [left; auto|].
  right. exists (submitted command base_cmd). split; [reflexivity|].
  unfold submitted, eqb.
  destruct (safe_commands !! base_cmd) as [safer|] eqn:Hsafe; [|by left].
  case_bool_decide as Heq; [right; by rewrite Heq | by left].
Qed.

(** X2. Whitespace before and after a command line does not change
    whether it is refused. *)
Theorem padding_keeps_the_refusal
    (sh : host) (ws1 command ws2 : str) (timeout : Z) (log : list spawn) :
  forallb isspace ws1 = true ->
  forallb isspace ws2 = true ->
  fst (run_command_safe sh (ws1 ++ command ++ ws2) timeout log)
  = Return (Refused (py "Command blocked for safety reasons"))
  <-> fst (run_command_safe sh command timeout log)
      = Return (Refused (py "Command blocked for safety reasons")).
Proof.
  intros H1 H2. rewrite !run_command_safe_eq, split_padding by done.
  destruct (split command) as [|base_cmd rest]; [done|].
  destruct (contains dangerous_commands base_cmd); [done|]. cbn [fst].
  split; intros [= Heq]; by apply reported_not_refused in Heq.
Qed.

Lemma padding_keeps_the_refusal_witness :
  fst (run_command_safe host_demo (py "  " ++ py "rm -rf /" ++ [9%N; 10%N]) 10 [])
  = Return (Refused (py "Command blocked for safety reasons"))
  <-> fst (run_command_safe host_demo (py "rm -rf /") 10 [])
      = Return (Refused (py "Command blocked for safety reasons")).
Proof.
  apply (padding_keeps_the_refusal host_demo (py "  ") (py "rm -rf /")
           [9%N; 10%N] 10 []); reflexivity.
Defined.

(** X3. The safe-flag mapping needs the bare name with nothing around it:
    a key of [safe_commands] with whitespace before or after it is handed
    to the shell as it is, whitespace included. *)
Theorem padded_bare_name_is_not_rewritten
    (sh : host) (name safer ws1 ws2 : str) (timeout : Z) (log : list spawn) :
  safe_commands !! name = Some safer ->
  forallb isspace ws1 = true ->
  forallb isspace ws2 = true ->
  ws1 ++ ws2 <> [] ->
  snd (run_command_safe sh (ws1 ++ name ++ ws2) timeout log)
  = log ++ [Spawn (ws1 ++ name ++ ws2) timeout].
Proof.
  intros Hsafe H1 H2 Hpad.
  rewrite run_command_safe_eq, split_padding by done.
  rewrite (split_one_token name) by (by eapply safe_key_one_token).
  rewrite (proj2 (contains_false _ _) (safe_commands_not_dangerous _ _ Hsafe)).
  cbn [snd]. unfold submitted, eqb. rewrite Hsafe.
  rewrite bool_decide_eq_false_2; [reflexivity|].
  intros Heq%(f_equal length). rewrite !length_app in Heq.
  destruct ws1, ws2; cbn in Heq; try lia. done.
Qed.

Lemma padded_bare_name_is_not_rewritten_witness :
  snd (run_command_safe host_demo ([] ++ py "ls" ++ py " ") 10 [])
  = [] ++ [Spawn ([] ++ py "ls" ++ py " ") 10].
Proof.
  apply (padded_bare_name_is_not_rewritten host_demo (py "ls") (py "ls -la")
           [] (py " ") 10 []); [reflexivity | reflexivity | reflexivity | discriminate].
Defined.

(** X4. A bare name of the mapping and its mapped form are the same
    request: same result, same call in the log. *)
Theorem bare_name_same_as_safe_form
    (sh : host) (name safer : str) (timeout : Z) (log : list spawn) :
  safe_commands !! name = Some safer ->
  run_command_safe sh name timeout log = run_command_safe sh safer timeout log.
Proof.
  intros H%elem_of_list_to_map_2. rewrite !run_command_safe_eq.
  repeat (apply elem_of_cons in H as [H|H];
          [injection H as -> ->; vm_compute; reflexivity|]).
  by apply elem_of_nil in H.
Qed.

Lemma bare_name_same_as_safe_form_witness :
  run_command_safe host_demo (py "du") 10 []
  = run_command_safe host_demo (py "du -h --max-depth=1") 10 [].
Proof.
  apply (bare_name_same_as_safe_form host_demo (py "du")
           (py "du -h --max-depth=1") 10 []). reflexivity.
Defined.

(** ** More on the help lookup *)

Lemma help_text_not_blank (answer : res CompletedProcess) (text : str) :
  help_text answer = Some text -> truthy (strip text) = true.
Proof.
  destruct answer as [result|e]; cbn; [|discriminate].
  destruct ((returncode result =? 0) && truthy (strip (stdout result))) eqn:Hout.
  - intros [= <-]. by apply andb_prop in Hout as [_ Hout].
  - destruct (truthy (strip (stderr result))) eqn:Herr; [|discriminate].
    by intros [= <-].
Qed.

Lemma help_loop_returns
    (sh : host) (command : str) (options : list str) (log : list spawn) :
  exists text more,
    help_loop sh command options log = (Return text, log ++ more)
    /\ truthy (strip text) = true.
Proof.
  revert log. induction options as [|help_opt options IH]; intros log.
  - exists (py "No help information available"), []. by rewrite app_nil_r.
  - cbn [help_loop]. unfold bind at 1. rewrite help_attempt_eq. cbv zeta.
    destruct (help_text _) as [text|] eqn:Htext.
    + eexists text, [_]. split; [reflexivity|]. by eapply help_text_not_blank.
    + destruct (IH (log ++ [Spawn (if eqb help_opt (py "help")
                                   then py "help " ++ command
                                   else command ++ py " " ++ help_opt) 5]))
        as (text & more & Heq & Hblank).
      eexists text, (_ :: more). split; [|done].
      etransitivity; [exact Heq|]. by rewrite <- app_assoc.
Qed.

(** X5. [get_command_help] never raises, and the text it returns always
    holds a character that is not whitespace: the caller never gets an
    empty or blank help text. *)
Theorem help_text_is_never_blank
    (sh : host) (command : str) (log : list spawn) :
  exists text,
    fst (get_command_help sh command log) = Return text
    /\ truthy (strip text) = true.
Proof.
  destruct (help_loop_returns sh command help_options log)
    as (text & more & Heq & Hblank).
  exists text. unfold get_command_help. by rewrite Heq.
Qed.

(** X6. The help lookup does not consult the denylist: for a command line
    whose first token is denylisted, [run_command_safe] leaves the log
    unchanged, while [get_command_help] starts a shell on
    [<command> --help]. *)
Theorem help_lookup_ignores_the_denylist
    (sh : host) (command : str) (timeout : Z) (log : list spawn)
    (base_cmd : str) (rest : list str) :
  split command = base_cmd :: rest ->
  base_cmd ∈ dangerous_commands ->
  snd (run_command_safe sh command timeout log) = log
  /\ exists more,
       snd (get_command_help sh command log)
       = log ++ Spawn (command ++ py " --help") 5 :: more.
Proof.
  intros Hsplit Hin%contains_true. split.
  - by rewrite run_command_safe_eq, Hsplit, Hin.
  - unfold get_command_help, help_options. cbn [help_loop].
    unfold bind at 1. rewrite help_attempt_eq.
    change (eqb (py "--help") (py "help")) with false. cbv iota zeta.
    change (py " " ++ py "--help") with (py " --help").
    destruct (help_text _) as [text|]; [by exists []|].
    destruct (help_loop_returns sh command [py "-h"; py "help"]
                (log ++ [Spawn (command ++ py " --help") 5]))
      as (text & more & Heq & _).
    exists more. etransitivity; [exact (f_equal snd Heq)|].
    cbn [snd]. by rewrite <- app_assoc.
Qed.

Lemma help_lookup_ignores_the_denylist_witness :
  snd (run_command_safe host_demo (py "rm") 10 []) = []
  /\ exists more,
       snd (get_command_help host_demo (py "rm") [])
       = [] ++ Spawn (py "rm" ++ py " --help") 5 :: more.
Proof.
  apply (help_lookup_ignores_the_denylist host_demo (py "rm") 10 [] (py "rm") []);
    [reflexivity | by_evaluation].
Defined.

(** ** More on the discoverer *)

Section DiscovererMore.

Variable fs : filesystem.

Lemma visit_dir_returned (dir : str) (commands commands' : gset str) (u : unit) (e : exn) :
  visit_dir fs dir commands = (Return u, commands') ->
  path_exists fs dir = true ->
  listdir fs dir = Raise e ->
  exn_cls e = PermissionError.
Proof.
  unfold visit_dir. intros Hret Hexists Hlist. rewrite Hexists in Hret.
  unfold try_except, bind, lift in Hret. rewrite Hlist in Hret.
  cbn [dispatch] in Hret. unfold issubclass in Hret.
  case_bool_decide as Hcls; [exact Hcls | discriminate].
Qed.

Lemma visit_dirs_returned (dirs : list str) (commands commands' : gset str) (u : unit) :
  for_each dirs (visit_dir fs) commands = (Return u, commands') ->
  forall dir e,
    dir ∈ dirs -> path_exists fs dir = true -> listdir fs dir = Raise e ->
    exn_cls e = PermissionError.
Proof.
  revert commands. induction dirs as [|d dirs IH]; intros commands Hret dir e Hin.
  - by apply elem_of_nil in Hin.
  - cbn [for_each] in Hret. unfold bind in Hret.
    destruct (visit_dir fs d commands) as [[[]|e1] commands1] eqn:Hd;
      [|discriminate].
    apply elem_of_cons in Hin as [->|Hin].
    + by eapply visit_dir_returned.
    + by eapply IH.
Qed.

Variable f : list str -> list str.
Hypothesis f_same_entries : forall items x, x ∈ f items <-> x ∈ items.

Lemma visit_dir_relist (dir : str) (commands : gset str) :
  visit_dir (relist f fs) dir commands = visit_dir fs dir commands.
Proof.
  unfold visit_dir. change (path_exists (relist f fs) dir) with (path_exists fs dir).
  destruct (path_exists fs dir); [|reflexivity].
  unfold try_except, bind, lift.
  change (listdir (relist f fs) dir)
    with (match listdir fs dir with
          | Return items => Return (f items)
          | Raise e => Raise e
          end).
  destruct (listdir fs dir) as [items|e]; [|reflexivity].
  destruct (visit_items_spec (relist f fs) dir (f items) commands)
    as (c1 & E1 & M1).
  destruct (visit_items_spec fs dir items commands) as (c2 & E2 & M2).
  rewrite E1, E2. f_equal. apply set_eq. intros x.
  rewrite M1, M2, f_same_entries. reflexivity.
Qed.

Lemma visit_dirs_relist (dirs : list str) (commands : gset str) :
  for_each dirs (visit_dir (relist f fs)) commands
  = for_each dirs (visit_dir fs) commands.
Proof.
  revert commands. induction dirs as [|d dirs IH]; intros commands; [reflexivity|].
  cbn [for_each]. unfold bind. rewrite visit_dir_relist.
  destruct (visit_dir fs d commands) as [[[]|e] commands1]; [apply IH | reflexivity].
Qed.

End DiscovererMore.

(** X7. The catalog does not depend on the order in which [os.listdir]
    returns the entries of a directory, nor on an entry being returned more
    than once: listings with the same entries give the same result, the
    same catalog or the same exception. *)
Theorem catalog_independent_of_listing_order
    (fs : filesystem) (f : list str -> list str) :
  (forall items x, x ∈ f items <-> x ∈ items) ->
  get_bin_commands (relist f fs) = get_bin_commands fs.
Proof.
  intros Hf. rewrite !get_bin_commands_eq. by rewrite visit_dirs_relist.
Qed.

Lemma catalog_independent_of_listing_order_witness :
  get_bin_commands (relist reverse fs_demo) = get_bin_commands fs_demo.
Proof.
  apply (catalog_independent_of_listing_order fs_demo reverse).
  intros items x. apply elem_of_reverse.
Defined.

(** X8. [get_bin_commands] raises exactly when listing some existing
    candidate directory raises something that is not a [PermissionError],
    and what it raises is the exception of such a listing. *)
Theorem discovery_fails_exactly_on_other_listing_errors (fs : filesystem) :
  (forall e,
     get_bin_commands fs = Raise e ->
     exists dir,
       dir ∈ bin_paths /\ path_exists fs dir = true
       /\ listdir fs dir = Raise e /\ exn_cls e <> PermissionError)
  /\ ((exists dir e,
         dir ∈ bin_paths /\ path_exists fs dir = true
         /\ listdir fs dir = Raise e /\ exn_cls e <> PermissionError) ->
      exists e, get_bin_commands fs = Raise e).
Proof.
  rewrite get_bin_commands_eq.
  pose proof (visit_dirs_spec fs bin_paths ∅) as Hscan.
  pose proof (visit_dirs_returned fs bin_paths ∅) as Hret.
  destruct (for_each bin_paths (visit_dir fs) ∅) as [[u|e0] commands]; split.
  - discriminate.
  - intros (dir & e & Hin & Hexists & Hlist & Hcls). destruct Hcls.
    by eapply Hret.
  - intros e [= <-]. exact Hscan.
  - intros _. by exists e0.
Qed.

Lemma discovery_fails_exactly_on_other_listing_errors_witness :
  exists e, get_bin_commands fs_local_bin_is_file = Raise e.
Proof.
  apply (discovery_fails_exactly_on_other_listing_errors fs_local_bin_is_file).
  exists (py "/usr/local/bin"),
         (Exn NotADirectoryError (py "[Errno 20] Not a directory: '/usr/local/bin'")).
  repeat split; [by_evaluation | discriminate].
Defined.

(** ** More on [strip] *)

Lemma forallb_isspace_rev (ws : str) :
  forallb isspace ws = true -> forallb isspace (rev ws) = true.
Proof.
  rewrite !forallb_forall. intros Hws c Hc. apply Hws. by apply in_rev.
Qed.

Lemma lstrip_space_prefix (ws s : str) :
  forallb isspace ws = true -> lstrip (ws ++ s) = lstrip s.
Proof.
  induction ws as [|c ws IH]; cbn; [done|].
  intros [Hc Hws]%andb_prop. rewrite Hc. auto.
Qed.

Lemma lstrip_all_space (ws : str) : forallb isspace ws = true -> lstrip ws = [].
Proof.
  intros Hws. rewrite <- (app_nil_r ws). by rewrite lstrip_space_prefix.
Qed.

Lemma lstrip_nil_all_space (s : str) : lstrip s = [] -> forallb isspace s = true.
Proof.
  induction s as [|c s IH]; cbn; [done|].
  destruct (isspace c); [auto | discriminate].
Qed.

Lemma lstrip_app (s t : str) : lstrip s <> [] -> lstrip (s ++ t) = lstrip s ++ t.
Proof.
  induction s as [|c s IH]; cbn; [done|].
  destruct (isspace c); auto.
Qed.

Lemma strip_all_space (ws : str) : forallb isspace ws = true -> strip ws = [].
Proof. intros Hws. unfold strip. by rewrite (lstrip_all_space ws). Qed.

Lemma strip_padding (ws1 s ws2 : str) :
  forallb isspace ws1 = true -> forallb isspace ws2 = true ->
  strip (ws1 ++ s ++ ws2) = strip s.
Proof.
  intros H1 H2. unfold strip. rewrite lstrip_space_prefix by done.
  destruct (lstrip s) as [|c s'] eqn:Hs.
  - apply lstrip_nil_all_space in Hs.
    rewrite (lstrip_all_space (s ++ ws2)); [done|].
    rewrite forallb_app. by rewrite Hs, H2.
  - rewrite lstrip_app by (by rewrite Hs). rewrite Hs, rev_app_distr.
    by rewrite lstrip_space_prefix by (by apply forallb_isspace_rev).
Qed.

(** ** The page *)

Lemma token_with_arguments_differs (selected rest : str) :
  selected ++ py " " ++ rest <> selected.
Proof.
  change (py " ") with [32%N].
  intros Heq%(f_equal length). rewrite !length_app in Heq. cbn in Heq. lia.
Qed.

Lemma split_full_command (selected_command custom_args : str) :
  one_token selected_command ->
  exists rest,
    split (full_command selected_command custom_args) = selected_command :: rest.
Proof.
  intros Htoken. unfold full_command.
  destruct (truthy (strip custom_args)).
  - eexists. by apply split_token_then_space.
  - eexists. by apply split_one_token.
Qed.

(** X9. Whitespace in the arguments box is not part of the command line:
    a blank box gives the selected command alone, and whitespace around the
    arguments gives the same command line as the arguments without it. *)
Theorem argument_padding_is_ignored
    (selected_command ws1 custom_args ws2 : str) :
  forallb isspace ws1 = true ->
  forallb isspace ws2 = true ->
  full_command selected_command (ws1 ++ ws2) = selected_command
  /\ full_command selected_command (ws1 ++ custom_args ++ ws2)
     = full_command selected_command custom_args.
Proof.
  intros H1 H2. unfold full_command. split.
  - rewrite strip_all_space; [done|]. rewrite forallb_app. by rewrite H1, H2.
  - by rewrite strip_padding.
Qed.

Lemma argument_padding_is_ignored_witness :
  full_command (py "ls") (py "  " ++ [9%N]) = py "ls"
  /\ full_command (py "ls") (py "  " ++ py "-l /tmp" ++ [9%N])
     = full_command (py "ls") (py "-l /tmp").
Proof.
  apply (argument_padding_is_ignored (py "ls") (py "  ") (py "-l /tmp") [9%N]);
    reflexivity.
Defined.

(** X10. On the page the selected command alone decides the refusal: when
    it is one token, a denylisted selection is refused with any arguments
    and without starting a shell, and for any other selection no
    arguments lead to a refusal. *)
Theorem selected_command_decides_the_refusal
    (sh : host) (selected_command custom_args : str)
    (timeout : Z) (log : list spawn) :
  one_token selected_command ->
  (selected_command ∈ dangerous_commands ->
     run_command_safe sh (full_command selected_command custom_args) timeout log
     = (Return (Refused (py "Command blocked for safety reasons")), log))
  /\ (selected_command ∉ dangerous_commands ->
        forall reason,
          fst (run_command_safe sh (full_command selected_command custom_args)
                 timeout log)
          <> Return (Refused reason)).
Proof.
  intros Htoken.
  destruct (split_full_command selected_command custom_args Htoken) as [rest Hsplit].
  rewrite run_command_safe_eq, Hsplit. split.
  - intros Hin%contains_true. by rewrite Hin.
  - intros Hout%contains_false reason. rewrite Hout. cbn [fst].
    intros [= Heq]. by eapply reported_not_refused.
Qed.

Lemma selected_command_decides_the_refusal_witness :
  run_command_safe host_demo (full_command (py "shred") (py "-u notes.txt")) 10 []
  = (Return (Refused (py "Command blocked for safety reasons")), [])
  /\ forall reason,
       fst (run_command_safe host_demo
              (full_command (py "echo") (py "hi; rm -rf /")) 10 [])
       <> Return (Refused reason).
Proof.
  split.
  - apply (selected_command_decides_the_refusal host_demo (py "shred")
             (py "-u notes.txt") 10 []);
      [split; [discriminate | reflexivity] | by_evaluation].
  - apply (selected_command_decides_the_refusal host_demo (py "echo")
             (py "hi; rm -rf /") 10 []);
      [split; [discriminate | reflexivity] | by_evaluation].
Defined.

(** X11. For a selected command of one token that is not denylisted, the
    shell gets the selected command followed by one space and the stripped
    arguments when there are arguments; with a blank arguments box it gets
    the mapped form of [safe_commands] when the selection is a key, and
    the selection itself otherwise. *)
Theorem arguments_switch_off_the_safe_flags
    (sh : host) (selected_command custom_args : str)
    (timeout : Z) (log : list spawn) :
  one_token selected_command ->
  selected_command ∉ dangerous_commands ->
  snd (run_command_safe sh (full_command selected_command custom_args) timeout log)
  = log ++ [Spawn (if truthy (strip custom_args)
                   then selected_command ++ py " " ++ strip custom_args
                   else default selected_command (safe_commands !! selected_command))
                  timeout].
Proof.
  intros Htoken Hout%contains_false.
  destruct (split_full_command selected_command custom_args Htoken) as [rest Hsplit].
  rewrite run_command_safe_eq, Hsplit, Hout. cbn [snd].
  unfold submitted, full_command, eqb.
  destruct (truthy (strip custom_args)).
  - destruct (safe_commands !! selected_command); [|reflexivity].
    rewrite bool_decide_eq_false_2; [reflexivity|].
    apply token_with_arguments_differs.
  - destruct (safe_commands !! selected_command); [|reflexivity].
    by rewrite bool_decide_eq_true_2.
Qed.

Lemma arguments_switch_off_the_safe_flags_witness :
  snd (run_command_safe host_demo (full_command (py "df") (py "  ")) 10 [])
  = [Spawn (py "df -h") 10]
  /\ snd (run_command_safe host_demo (full_command (py "df") (py " -i ")) 10 [])
     = [Spawn (py "df -i") 10].
Proof.
  split.
  - apply (arguments_switch_off_the_safe_flags host_demo (py "df") (py "  ") 10 []);
      [split; [discriminate | reflexivity] | by_evaluation].
  - apply (arguments_switch_off_the_safe_flags host_demo (py "df") (py " -i ") 10 []);
      [split; [discriminate | reflexivity] | by_evaluation].
Defined.

Lemma show_result_not_empty (r : outcome) : show_result r <> [].
Proof.
  destruct r as [[[] out] err]; cbn; [|discriminate].
  destruct (truthy out); discriminate.
Qed.

(** X12. The page never shows why a command was refused: for a denylisted
    selection the only thing displayed is the error box with the text
    "Command failed: " and nothing after it, since the box shows the third
    component of the tuple and the reason is in the second. *)
Theorem refusal_reason_is_not_displayed
    (sh : host) (selected_command custom_args : str) (log : list spawn) :
  one_token selected_command ->
  selected_command ∈ dangerous_commands ->
  on_execute sh selected_command custom_args log
  = (Return [st_error (py "Command failed: ")], log).
Proof.
  intros Htoken Hin%contains_true.
  destruct (split_full_command selected_command custom_args Htoken) as [rest Hsplit].
  unfold on_execute, bind. by rewrite run_command_safe_eq, Hsplit, Hin.
Qed.

Lemma refusal_reason_is_not_displayed_witness :
  on_execute host_demo (py "reboot") (py "now") []
  = (Return [st_error (py "Command failed: ")], []).
Proof.
  apply (refusal_reason_is_not_displayed host_demo (py "reboot") (py "now") []);
    [split; [discriminate | reflexivity] | by_evaluation].
Defined.

(** X13. The Execute button always gives feedback: whatever the selection,
    the arguments and the host, its body does not raise and puts at least
    one widget on the page. *)
Theorem execute_always_shows_something
    (sh : host) (selected_command custom_args : str) (log : list spawn) :
  exists widgets,
    fst (on_execute sh selected_command custom_args log) = Return widgets
    /\ widgets <> [].
Proof.
  unfold on_execute, bind. rewrite run_command_safe_eq.
  destruct (split (full_command selected_command custom_args)) as [|base_cmd rest];
    [eexists; split; [reflexivity | apply show_result_not_empty]|].
  destruct (contains dangerous_commands base_cmd);
    eexists; (split; [reflexivity | apply show_result_not_empty]).
Qed.

(** ** The search box *)

Lemma filter_sublist (p : str -> bool) (l : list str) :
  List.filter p l `sublist_of` l.
Proof.
  induction l as [|x l IH]; cbn; [constructor|].
  destruct (p x); by constructor.
Qed.

Lemma StronglySorted_sublist (l1 l2 : list str) :
  l1 `sublist_of` l2 -> StronglySorted le l2 -> StronglySorted le l1.
Proof.
  induction 1 as [|x l1 l2 Hsub IH|x l1 l2 Hsub IH]; [done| |].
  - rewrite !StronglySorted_cons. intros [Hall Hsorted]. split; [|auto].
    rewrite Forall_forall in Hall |- *. intros y Hy. apply Hall.
    by eapply elem_of_sublist.
  - rewrite StronglySorted_cons. intros [_ Hsorted]. auto.
Qed.

Lemma filtered_commands_sublist
    (lower : str -> str) (commands : list str) (search_term : str) :
  filtered_commands lower commands search_term `sublist_of` commands.
Proof.
  unfold filtered_commands. destruct (truthy search_term); [|done].
  apply filter_sublist.
Qed.

Lemma starts_with_refl (s : str) : starts_with s s = true.
Proof. induction s as [|c s IH]; cbn; [done|]. by rewrite N.eqb_refl. Qed.

Lemma occurs_in_refl (s : str) : occurs_in s s = true.
Proof. destruct s; cbn; [done|]. by rewrite N.eqb_refl, starts_with_refl. Qed.

(** X14. What the page offers for any search term is still a sorted list
    without duplicates, taken from the catalog in the catalog's order, and
    each of its names is an executable regular file listed in a candidate
    directory. *)
Theorem search_results_keep_the_catalog_invariants
    (lower : str -> str) (fs : filesystem)
    (catalog : list str) (search_term : str) :
  get_bin_commands fs = Return catalog ->
  StronglySorted le (filtered_commands lower catalog search_term)
  /\ NoDup (filtered_commands lower catalog search_term)
  /\ filtered_commands lower catalog search_term `sublist_of` catalog
  /\ forall name,
       name ∈ filtered_commands lower catalog search_term ->
       exists dir, dir ∈ bin_paths /\ found_in fs dir name.
Proof.
  rewrite get_bin_commands_eq.
  pose proof (visit_dirs_spec fs bin_paths ∅) as Hscan.
  destruct (for_each bin_paths (visit_dir fs) ∅) as [[[]|e] commands];
    [|discriminate].
  intros [= <-].
  pose proof (filtered_commands_sublist lower (sorted (elements commands))
                search_term) as Hsub.
  split; [exact (StronglySorted_sublist _ _ Hsub (sorted_StronglySorted _))|].
  split; [apply (sublist_NoDup _ (sorted (elements commands)));
          [apply sorted_NoDup, NoDup_elements | exact Hsub]|].
  split; [done|].
  intros name Hin. eapply elem_of_sublist in Hin; [|exact Hsub].
  apply sorted_elem_of, elem_of_elements, Hscan in Hin as [Hempty|Hfound];
    [|exact Hfound].
  by apply not_elem_of_empty in Hempty.
Qed.

Lemma search_results_keep_the_catalog_invariants_witness :
  StronglySorted le (filtered_commands ascii_lower [py "cat"; py "ls"] (py "L"))
  /\ NoDup (filtered_commands ascii_lower [py "cat"; py "ls"] (py "L"))
  /\ filtered_commands ascii_lower [py "cat"; py "ls"] (py "L")
     `sublist_of` [py "cat"; py "ls"]
  /\ forall name,
       name ∈ filtered_commands ascii_lower [py "cat"; py "ls"] (py "L") ->
       exists dir, dir ∈ bin_paths /\ found_in fs_demo dir name.
Proof.
  apply (search_results_keep_the_catalog_invariants ascii_lower fs_demo
           [py "cat"; py "ls"] (py "L")).
  vm_compute. reflexivity.
Defined.

(** X15. Searching for a command by its own name, in any mix of upper and
    lower case, always shows that command. *)
Theorem exact_name_is_found
    (lower : str -> str) (commands : list str) (cmd search_term : str) :
  cmd ∈ commands ->
  lower search_term = lower cmd ->
  cmd ∈ filtered_commands lower commands search_term.
Proof.
  intros Hin Hlower. unfold filtered_commands.
  destruct (truthy search_term); [|done].
  apply list_elem_of_In, filter_In. split; [by apply list_elem_of_In|].
  rewrite Hlower. apply occurs_in_refl.
Qed.

Lemma exact_name_is_found_witness :
  py "netstat"
  ∈ filtered_commands ascii_lower [py "ls"; py "netstat"; py "ss"] (py "NetStat").
Proof.
  apply (exact_name_is_found ascii_lower [py "ls"; py "netstat"; py "ss"]
           (py "netstat") (py "NetStat")); [by_evaluation | reflexivity].
Defined.
